(** * Staking parameters of okchain: [x/staking/types/params.go]

    A shallow embedding of the staking module's parameter set: the [Params]
    record, its constructor and defaults, the key/pointer pairs handed to the
    parameter store, equality through the codec, the diagnostic rendering and
    the validity check, followed by the properties proved about them. *)

From Stdlib Require Import ZArith NArith String Ascii Strings.Byte List DecimalString Lia.
From stdpp Require Import gmap strings list.
Import ListNotations.

Open Scope string_scope.
Open Scope list_scope.

(** ** Go base types *)

(** [uint16]: a natural number below 2^16.  The file never does arithmetic on
    these fields, so no wrap-around is written out; [uint16_ok] is the range
    of the type. *)
Definition uint16 := N.
Definition uint16_ok (n : uint16) : Prop := (n < 65536)%N.

(** [time.Duration]: an [int64] count of nanoseconds. *)
Definition Duration := Z.
Definition Duration_ok (d : Duration) : Prop := (- 2 ^ 63 <= d < 2 ^ 63)%Z.

(** [[]byte]. *)
Definition bytes := list byte.

#[global] Instance byte_eq_decision : EqDecision byte := Byte.byte_eq_dec.

(** [bytes.Equal]: same length and the same byte at every index (a nil and an
    empty slice are equal, as both are the empty list here). *)
Fixpoint bytes_Equal (a b : bytes) : bool :=
  match a, b with
  | [], [] => true
  | x :: a', y :: b' => Byte.eqb x y && bytes_Equal a' b'
  | _, _ => false
  end.

(** Modelled from the spec: the decimal type [sdk.Dec] of the SDK, declared
    outside this package.  The spec asks for an arbitrary-precision decimal
    that can be ordered and compared against zero; as in the SDK a decimal is
    an unbounded integer counting units of 10^-18. *)
Record Dec := { dec_int : Z }.

Definition Dec_Precision : Z := 18.
Definition ZeroDec : Dec := {| dec_int := 0 |}.
Definition Dec_LTE (d d2 : Dec) : bool := (dec_int d <=? dec_int d2)%Z.
Definition Dec_of_units (whole : Z) : Dec := {| dec_int := whole * 10 ^ Dec_Precision |}.

(** [error]: [nil] or an error value carrying its message. *)
Definition error := option string.

(** [fmt.Errorf] as this file calls it: a format without verbs and no
    operands, so the message is the format (see [Errorf_formats_have_no_verb]
    below, which checks this against [doPrintf]). *)
Definition fmt_Errorf (format : string) : error := Some format.

(** ** Keys for parameter access *)

Definition KeyUnbondingTime : bytes := list_byte_of_string "UnbondingTime".
Definition KeyMaxValidators : bytes := list_byte_of_string "MaxValidators".
Definition KeyBondDenom : bytes := list_byte_of_string "BondDenom".
Definition KeyEpoch : bytes := list_byte_of_string "BlocksPerEpoch".
Definition KeyTheEndOfLastEpoch : bytes := list_byte_of_string "TheEndOfLastEpoch".

Definition KeyMaxValsToVote : bytes := list_byte_of_string "MaxValsToVote".
Definition KeyMinSelfDelegationLimit : bytes := list_byte_of_string "MinSelfDelegationLimit".
Definition KeyMinDelegation : bytes := list_byte_of_string "MinDelegation".

(** ** Params *)

(** Params defines the high level settings for staking; the fields are in the
    order of the struct declaration. *)
Record Params := {
  UnbondingTime : Duration;
  MaxValidators : uint16;
  Epoch : uint16;
  MaxValsToVote : uint16;
  BondDenom : string;
  MinSelfDelegationLimit : Dec;
  MinDelegation : Dec
}.

(** The values of the Go type: every integer field within the range of its type. *)
Definition Params_ok (p : Params) : Prop :=
  Duration_ok (UnbondingTime p)
  /\ uint16_ok (MaxValidators p) /\ uint16_ok (Epoch p) /\ uint16_ok (MaxValsToVote p).

(** NewParams creates a new Params instance. *)
Definition NewParams (unbondingTime : Duration) (maxValidators : uint16) (bondDenom : string)
    (epoch : uint16) (maxValsToVote : uint16)
    (minSelfDelegationLimited : Dec) (minDelegation : Dec) : Params :=
  {| UnbondingTime := unbondingTime;
     MaxValidators := maxValidators;
     BondDenom := bondDenom;
     Epoch := epoch;
     MaxValsToVote := maxValsToVote;
     MinSelfDelegationLimit := minSelfDelegationLimited;
     MinDelegation := minDelegation |}.

(** Validate gives a quick validity check for a set of params.  The receiver
    is passed by value and the body assigns nothing, so the method is a
    function of the receiver's fields. *)
Definition Validate (p : Params) : error :=
  if String.eqb (BondDenom p) "" then
    fmt_Errorf "staking parameter BondDenom can't be an empty string"
  else if N.eqb (MaxValidators p) 0 then
    fmt_Errorf "staking parameter MaxValidators must be a positive integer"
  else if N.eqb (Epoch p) 0 then
    fmt_Errorf "staking parameter Epoch must be a positive integer"
  else if N.eqb (MaxValsToVote p) 0 then
    fmt_Errorf "staking parameter MaxValsToVote must be a positive integer"
  else if Dec_LTE (MinSelfDelegationLimit p) ZeroDec then
    fmt_Errorf "staking parameter MinSelfDelegationLimit cannot be a negative integer"
  else None.

(** ** Pointers to the fields of a Params value *)

(** The values a field can hold, tagged with their Go type. *)
Inductive value :=
| VDuration (d : Duration)
| VUint16 (n : uint16)
| VString (s : string)
| VDec (d : Dec).

Inductive field :=
| FUnbondingTime
| FMaxValidators
| FEpoch
| FMaxValsToVote
| FBondDenom
| FMinSelfDelegationLimit
| FMinDelegation.

#[global] Instance field_eq_decision : EqDecision field.
Proof. solve_decision. Defined.

(** The address of a Params value, and [&p.F]: the address of one of its fields. *)
Definition loc := positive.

Inductive pointer :=
| FieldPtr (base : loc) (f : field).

(** The memory that holds the Params values pointers refer to. *)
Abbreviation heap := (gmap loc Params).

(** [p.F] *)
Definition get_field (p : Params) (f : field) : value :=
  match f with
  | FUnbondingTime => VDuration (UnbondingTime p)
  | FMaxValidators => VUint16 (MaxValidators p)
  | FEpoch => VUint16 (Epoch p)
  | FMaxValsToVote => VUint16 (MaxValsToVote p)
  | FBondDenom => VString (BondDenom p)
  | FMinSelfDelegationLimit => VDec (MinSelfDelegationLimit p)
  | FMinDelegation => VDec (MinDelegation p)
  end.

(** [p.F = v]; a value of another type than the field's cannot be assigned
    (the store that writes through the pointer reports it), which is [None]. *)
Definition set_field (p : Params) (f : field) (v : value) : option Params :=
  match f, v with
  | FUnbondingTime, VDuration d =>
      Some {| UnbondingTime := d; MaxValidators := MaxValidators p; Epoch := Epoch p;
              MaxValsToVote := MaxValsToVote p; BondDenom := BondDenom p;
              MinSelfDelegationLimit := MinSelfDelegationLimit p;
              MinDelegation := MinDelegation p |}
  | FMaxValidators, VUint16 n =>
      Some {| UnbondingTime := UnbondingTime p; MaxValidators := n; Epoch := Epoch p;
              MaxValsToVote := MaxValsToVote p; BondDenom := BondDenom p;
              MinSelfDelegationLimit := MinSelfDelegationLimit p;
              MinDelegation := MinDelegation p |}
  | FEpoch, VUint16 n =>
      Some {| UnbondingTime := UnbondingTime p; MaxValidators := MaxValidators p; Epoch := n;
              MaxValsToVote := MaxValsToVote p; BondDenom := BondDenom p;
              MinSelfDelegationLimit := MinSelfDelegationLimit p;
              MinDelegation := MinDelegation p |}
  | FMaxValsToVote, VUint16 n =>
      Some {| UnbondingTime := UnbondingTime p; MaxValidators := MaxValidators p;
              Epoch := Epoch p; MaxValsToVote := n; BondDenom := BondDenom p;
              MinSelfDelegationLimit := MinSelfDelegationLimit p;
              MinDelegation := MinDelegation p |}
  | FBondDenom, VString s =>
      Some {| UnbondingTime := UnbondingTime p; MaxValidators := MaxValidators p;
              Epoch := Epoch p; MaxValsToVote := MaxValsToVote p; BondDenom := s;
              MinSelfDelegationLimit := MinSelfDelegationLimit p;
              MinDelegation := MinDelegation p |}
  | FMinSelfDelegationLimit, VDec d =>
      Some {| UnbondingTime := UnbondingTime p; MaxValidators := MaxValidators p;
              Epoch := Epoch p; MaxValsToVote := MaxValsToVote p; BondDenom := BondDenom p;
              MinSelfDelegationLimit := d;
              MinDelegation := MinDelegation p |}
  | FMinDelegation, VDec d =>
      Some {| UnbondingTime := UnbondingTime p; MaxValidators := MaxValidators p;
              Epoch := Epoch p; MaxValsToVote := MaxValsToVote p; BondDenom := BondDenom p;
              MinSelfDelegationLimit := MinSelfDelegationLimit p;
              MinDelegation := d |}
  | _, _ => None
  end.

(** [*ptr]: reading through a pointer; [None] when nothing lives at its base. *)
Definition load (h : heap) (ptr : pointer) : option value :=
  match ptr with
  | FieldPtr l f =>
      match h !! l with
      | Some p => Some (get_field p f)
      | None => None
      end
  end.

(** [*ptr = v]: writing through a pointer overwrites that field of the value
    it points into, in place. *)
Definition store (h : heap) (ptr : pointer) (v : value) : option heap :=
  match ptr with
  | FieldPtr l f =>
      match h !! l with
      | Some p =>
          match set_field p f v with
          | Some p' => Some (<[l := p']> h)
          | None => None
          end
      | None => None
      end
  end.

(** Calling a method that has a value receiver on the Params value at [l]:
    the method runs on a copy of the value, so the memory after the call is
    the memory before it. *)
Definition call_by_value {A : Type} (method : Params -> A) (h : heap) (l : loc)
    : option (heap * A) :=
  match h !! l with
  | Some p => Some (h, method p)
  | None => None
  end.

(** One entry of [params.ParamSetPairs]. *)
Record ParamSetPair := { Key : bytes; Value : pointer }.

(** ParamSetPairs is the implements params.ParamSet.  The receiver is a
    pointer; the method reads nothing through it and only takes the addresses
    of its fields. *)
Definition ParamSetPairs (p : loc) : list ParamSetPair :=
  [ {| Key := KeyUnbondingTime; Value := FieldPtr p FUnbondingTime |};
    {| Key := KeyMaxValidators; Value := FieldPtr p FMaxValidators |};
    {| Key := KeyBondDenom; Value := FieldPtr p FBondDenom |};
    {| Key := KeyEpoch; Value := FieldPtr p FEpoch |};
    {| Key := KeyMaxValsToVote; Value := FieldPtr p FMaxValsToVote |};
    {| Key := KeyMinSelfDelegationLimit; Value := FieldPtr p FMinSelfDelegationLimit |};
    {| Key := KeyMinDelegation; Value := FieldPtr p FMinDelegation |} ].

(** ** Equality through the codec *)

Section Codec.
(** [ModuleCdc.MustMarshalBinaryLengthPrefixed]: the module's codec, declared
    in another file of the package; any encoder of Params into bytes. *)
Variable MustMarshalBinaryLengthPrefixed : Params -> bytes.

(** Equal returns a boolean determining if two Param types are identical. *)
Definition Equal (p p2 : Params) : bool :=
  let bz1 := MustMarshalBinaryLengthPrefixed p in
  let bz2 := MustMarshalBinaryLengthPrefixed p2 in
  bytes_Equal bz1 bz2.
End Codec.

(** ** Defaults *)

(** The default values, constants of the [config] package and
    [sdk.DefaultBondDenom]; they are declared outside this file. *)
Record config := {
  DefaultUnbondingTime : Duration;
  DefaultMaxValidators : uint16;
  DefaultBondDenom : string;
  DefaultEpoch : uint16;
  DefaultMaxValsToVote : uint16;
  DefaultMinSelfDelegationLimit : Dec;
  DefaultMinDelegation : Dec
}.

(** DefaultParams returns a default set of parameters. *)
Definition DefaultParams (cfg : config) : Params :=
  NewParams (DefaultUnbondingTime cfg) (DefaultMaxValidators cfg)
    (DefaultBondDenom cfg) (DefaultEpoch cfg) (DefaultMaxValsToVote cfg)
    (DefaultMinSelfDelegationLimit cfg) (DefaultMinDelegation cfg).

(** ** Formatting *)

(** [%d] of an unsigned integer: its decimal digits. *)
Definition uint_decimal (n : N) : string := NilEmpty.string_of_uint (N.to_uint n).

(** The Go name of the type of an operand, as fmt prints it. *)
Definition go_type (a : value) : string :=
  match a with
  | VDuration _ => "time.Duration"
  | VUint16 _ => "uint16"
  | VString _ => "string"
  | VDec _ => "types.Dec"
  end.

Section Fmt.
(** Three pieces of formatting live outside this package and are taken as
    they come: [time.Duration.String], the way a [sdk.Dec] operand prints
    itself under a verb, and what fmt prints for a verb and an operand of a
    built-in type that this file never combines. *)
Variable Duration_String : Duration -> string.
Variable Dec_Format : ascii -> Dec -> string.
Variable fmt_other : ascii -> value -> string.

Definition printArg (verb : ascii) (a : value) : string :=
  match a with
  | VDuration d =>
      if Ascii.eqb verb "s" || Ascii.eqb verb "v" then Duration_String d
      else fmt_other verb a
  | VUint16 n =>
      if Ascii.eqb verb "d" || Ascii.eqb verb "v" then uint_decimal n
      else fmt_other verb a
  | VString s =>
      if Ascii.eqb verb "s" || Ascii.eqb verb "v" then s
      else fmt_other verb a
  | VDec d => Dec_Format verb d
  end.

(** Operands left over when the format is used up. *)
Fixpoint extra_operands (a : list value) : string :=
  match a with
  | [] => ""
  | [x] => go_type x +:+ "=" +:+ printArg "v" x
  | x :: a' => go_type x +:+ "=" +:+ printArg "v" x +:+ ", " +:+ extra_operands a'
  end.

Definition extra (a : list value) : string :=
  match a with
  | [] => ""
  | _ => "%!(EXTRA " +:+ extra_operands a +:+ ")"
  end.

(** [fmt.Sprintf] for formats whose directives are a percent sign followed
    by the verb (no flags, width or precision occur in this package): text
    is copied, each verb prints the next operand, a verb without operand
    prints the MISSING marker and operands without verb the EXTRA marker. *)
Fixpoint fmt_Sprintf (format : string) (a : list value) : string :=
  match format with
  | EmptyString => extra a
  | String "%" EmptyString => "%!(NOVERB)" +:+ extra a
  | String "%" (String verb rest) =>
      if Ascii.eqb verb "%" then String "%" (fmt_Sprintf rest a)
      else
        match a with
        | [] => "%!" +:+ String verb "(MISSING)" +:+ fmt_Sprintf rest []
        | x :: a' => printArg verb x +:+ fmt_Sprintf rest a'
        end
  | String c rest => String c (fmt_Sprintf rest a)
  end.

(** The operands of the [Sprintf] call in [String], in the order written. *)
Definition String_operands (p : Params) : list value :=
  [ VDuration (UnbondingTime p);
    VUint16 (MaxValidators p); VUint16 (Epoch p); VString (BondDenom p);
    VUint16 (MaxValsToVote p); VDec (MinSelfDelegationLimit p); VDec (MinDelegation p) ].

(** String returns a human readable string representation of the Params
    (the method [String]; the name is taken by the constructor of strings). *)
Definition Params_String (p : Params) : string :=
  fmt_Sprintf "Params:
  Unbonding Time:    		%s
  Max Validators:   	 	%d
  Epoch: 					%d
  Bonded Coin Denom: 		%s
  MaxValsToVote:     		%d
  MinSelfDelegationLimited  %d
  MinDelegation				%d" (String_operands p).
End Fmt.

(** ** Words of the specification *)

(** The order in which the specification's data model lists the seven fields. *)
Definition data_model_order : list field :=
  [ FUnbondingTime; FMaxValidators; FEpoch; FMaxValsToVote; FBondDenom;
    FMinSelfDelegationLimit; FMinDelegation ].

(** A decidable equality on field values. *)
Definition value_eqb (a b : value) : bool :=
  match a, b with
  | VDuration x, VDuration y => Z.eqb x y
  | VUint16 x, VUint16 y => N.eqb x y
  | VString x, VString y => String.eqb x y
  | VDec x, VDec y => Z.eqb (dec_int x) (dec_int y)
  | _, _ => false
  end.

Fixpoint values_eqb (a b : list value) : bool :=
  match a, b with
  | [], [] => true
  | x :: a', y :: b' => value_eqb x y && values_eqb a' b'
  | _, _ => false
  end.

(** "Field order matching the data-model order": the fields that [String]
    prints, in the order it prints them, are those of [order]. *)
Definition rendered_in_order (order : list field) (p : Params) : bool :=
  values_eqb (String_operands p) (map (get_field p) order).

(** The order in which the specification lists the seven bindings. *)
Definition bindings_order : list field :=
  [ FUnbondingTime; FMaxValidators; FBondDenom; FEpoch; FMaxValsToVote;
    FMinSelfDelegationLimit; FMinDelegation ].

(** The five invariants the specification asks of a valid parameter set. *)
Definition invariants (p : Params) : Prop :=
  BondDenom p <> ""
  /\ (0 < MaxValidators p)%N
  /\ (0 < Epoch p)%N
  /\ (0 < MaxValsToVote p)%N
  /\ (0 < dec_int (MinSelfDelegationLimit p))%Z.

(** ** Sample values *)

(** 21 days, in nanoseconds. *)
Definition three_weeks : Duration := (21 * 24 * 3600 * 1000000000)%Z.

(** The parameter set of the specification's scenario. *)
Definition p1 : Params :=
  NewParams three_weeks 100%N "stake" 200%N 50%N (Dec_of_units 1%Z) (Dec_of_units 0%Z).

(** The five errors of [Validate], named as the specification names them. *)
Definition empty_denom_error : error :=
  Some "staking parameter BondDenom can't be an empty string".
Definition max_validators_error : error :=
  Some "staking parameter MaxValidators must be a positive integer".
Definition epoch_length_error : error :=
  Some "staking parameter Epoch must be a positive integer".
Definition max_validators_to_vote_error : error :=
  Some "staking parameter MaxValsToVote must be a positive integer".
Definition min_self_delegation_limit_error : error :=
  Some "staking parameter MinSelfDelegationLimit cannot be a negative integer".

Definition validation_errors : list error :=
  [ empty_denom_error; max_validators_error; epoch_length_error;
    max_validators_to_vote_error; min_self_delegation_limit_error ].

(** ** Types of fields, and sequences of writes *)

(** The Go types of the seven fields. *)
Inductive go_ty := TDuration | TUint16 | TString | TDec.

Definition field_type (f : field) : go_ty :=
  match f with
  | FUnbondingTime => TDuration
  | FMaxValidators | FEpoch | FMaxValsToVote => TUint16
  | FBondDenom => TString
  | FMinSelfDelegationLimit | FMinDelegation => TDec
  end.

Definition value_type (v : value) : go_ty :=
  match v with
  | VDuration _ => TDuration
  | VUint16 _ => TUint16
  | VString _ => TString
  | VDec _ => TDec
  end.

Definition pointer_field (ptr : pointer) : field :=
  match ptr with
  | FieldPtr _ f => f
  end.


(** A sequence of writes, in order, given up at the first that fails. *)
Fixpoint store_all (h : heap) (writes : list (pointer * value)) : option heap :=
  match writes with
  | [] => Some h
  | (ptr, v) :: rest =>
      match store h ptr v with
      | Some h' => store_all h' rest
      | None => None
      end
  end.

(** The writes that copy the parameter set [q] through a list of pairs: through
    each pointer, the value [q] has in the field it points to. *)
Definition writes_of (q : Params) (pairs : list ParamSetPair) : list (pointer * value) :=
  map (fun kv => (Value kv, get_field q (pointer_field (Value kv)))) pairs.

(** ** A sample codec *)

(** A codec with a decoder, to have one at hand in the examples: a parameter
    set is numbered through its seven fields and the number written bit by
    bit, one byte per bit. *)
#[global] Instance Dec_eq_decision : EqDecision Dec.
Proof. solve_decision. Defined.

#[global] Instance Params_eq_decision : EqDecision Params.
Proof. solve_decision. Defined.

#[global] Instance value_eq_decision : EqDecision value.
Proof. solve_decision. Defined.

Definition Params_to_tuple (p : Params) : Z * N * N * N * string * Z * Z :=
  (UnbondingTime p, MaxValidators p, Epoch p, MaxValsToVote p, BondDenom p,
   dec_int (MinSelfDelegationLimit p), dec_int (MinDelegation p)).

Definition Params_of_tuple (t : Z * N * N * N * string * Z * Z) : Params :=
  let '(u, m, e, v, b, s, d) := t in
  {| UnbondingTime := u; MaxValidators := m; Epoch := e; MaxValsToVote := v; BondDenom := b;
     MinSelfDelegationLimit := {| dec_int := s |}; MinDelegation := {| dec_int := d |} |}.

#[global] Instance Params_countable : Countable Params.
Proof.
  refine (inj_countable' Params_to_tuple Params_of_tuple _).
  intros [u m e v b [s] [d]]. reflexivity.
Defined.

Fixpoint bytes_of_positive (n : positive) : bytes :=
  match n with
  | xH => []
  | xO n' => Byte.x00 :: bytes_of_positive n'
  | xI n' => Byte.x01 :: bytes_of_positive n'
  end.

Fixpoint positive_of_bytes (bz : bytes) : positive :=
  match bz with
  | [] => xH
  | b :: bz' => if Byte.eqb b Byte.x00 then xO (positive_of_bytes bz')
                else xI (positive_of_bytes bz')
  end.

Definition sample_marshal (p : Params) : bytes := bytes_of_positive (encode p).
Definition sample_unmarshal (bz : bytes) : option Params := decode (positive_of_bytes bz).

(** The scenario's parameter set with an empty bond denomination. *)
Definition p2 : Params :=
  NewParams three_weeks 100%N "" 200%N 50%N (Dec_of_units 1%Z) (Dec_of_units 0%Z).

(** A memory that holds the scenario's set at two addresses. *)
Definition h1 : heap := <[2%positive := p1]> (<[1%positive := p1]> ∅).

(** * Properties *)

(** ** Validate *)

Lemma Dec_LTE_ZeroDec_false (d : Dec) :
  Dec_LTE d ZeroDec = false <-> (0 < dec_int d)%Z.
Proof. unfold Dec_LTE, ZeroDec; simpl. rewrite Z.leb_gt. reflexivity. Qed.

Lemma Dec_LTE_ZeroDec_true (d : Dec) :
  Dec_LTE d ZeroDec = true <-> (dec_int d <= 0)%Z.
Proof. unfold Dec_LTE, ZeroDec; simpl. apply Z.leb_le. Qed.

(** The five tests of [Validate], as booleans, in the order of the code. *)
Ltac validate_cases p :=
  unfold Validate, fmt_Errorf;
  destruct (String.eqb_spec (BondDenom p) "");
  [ | destruct (N.eqb_spec (MaxValidators p) 0);
      [ | destruct (N.eqb_spec (Epoch p) 0);
          [ | destruct (N.eqb_spec (MaxValsToVote p) 0);
              [ | destruct (Dec_LTE (MinSelfDelegationLimit p) ZeroDec) eqn:Hlte ] ] ] ].

Lemma Validate_None_iff (p : Params) : Validate p = None <-> invariants p.
Proof.
  unfold invariants. split.
  - validate_cases p; try discriminate. intros _.
    apply Dec_LTE_ZeroDec_false in Hlte. repeat split; try assumption; lia.
  - intros (Hb & Hm & He & Hv & Hs). apply Dec_LTE_ZeroDec_false in Hs.
    validate_cases p; try congruence; lia.
Qed.

Lemma Validate_in_errors (p : Params) :
  Validate p = None \/ In (Validate p) validation_errors.
Proof.
  validate_cases p; [right | right | right | right | right | left];
    unfold validation_errors; simpl; auto 7.
Qed.

Lemma validation_errors_distinct : List.NoDup validation_errors.
Proof.
  unfold validation_errors.
  repeat (constructor; [simpl; intros H; repeat destruct H as [H | H]; discriminate H || exact H |]).
  constructor.
Qed.

(** C2: [Validate] returns no error exactly when the five invariants hold
    (non-empty bond denomination; positive MaxValidators, Epoch and
    MaxValsToVote; positive MinSelfDelegationLimit); otherwise it returns,
    as a value, one of its five descriptive errors.  It is a function of its
    by-value receiver: called on a parameter set in memory it leaves the
    memory, and so the set, as it was. *)
Theorem Validate_ok_iff_invariants (p : Params) :
  (Validate p = None <-> invariants p)
  /\ (~ invariants p ->
      exists msg, Validate p = Some msg /\ msg <> "" /\ In (Some msg) validation_errors)
  /\ (forall (h : heap) (l : loc),
        h !! l = Some p -> call_by_value Validate h l = Some (h, Validate p)).
Proof.
  split; [apply Validate_None_iff |].
  split; [| intros h l Hl; unfold call_by_value; rewrite Hl; reflexivity].
  intros Hinv. destruct (Validate_in_errors p) as [Hnone | Hin].
  - exfalso. apply Hinv, Validate_None_iff, Hnone.
  - destruct (Validate p) as [msg |] eqn:Hv.
    + exists msg. split; [reflexivity |]. split; [| exact Hin].
      intros ->. unfold validation_errors in Hin. simpl in Hin.
      repeat destruct Hin as [Hin | Hin]; discriminate Hin || exact Hin.
    + exfalso. apply Hinv, Validate_None_iff, Hv.
Qed.

Lemma Validate_ok_iff_invariants_witness :
  Validate p1 = None
  /\ exists msg,
       Validate (NewParams three_weeks 100%N "stake" 200%N 50%N ZeroDec ZeroDec) = Some msg
       /\ msg <> "" /\ In (Some msg) validation_errors.
Proof.
  split.
  - apply (proj1 (Validate_ok_iff_invariants p1)).
    unfold invariants; simpl. repeat split; try lia. discriminate.
  - apply (proj1 (proj2 (Validate_ok_iff_invariants
                           (NewParams three_weeks 100%N "stake" 200%N 50%N ZeroDec ZeroDec)))).
    unfold invariants; simpl. intros (_ & _ & _ & _ & H). lia.
Defined.

(** C3: [Validate] reports the first violated invariant, in the order empty
    bond denomination, MaxValidators = 0, Epoch = 0, MaxValsToVote = 0,
    MinSelfDelegationLimit <= 0; the five errors are pairwise different, and a
    parameter set with an empty denomination and MaxValidators = 0 gets the
    empty-denomination error. *)
Theorem Validate_reports_first_violation (p : Params) :
  (BondDenom p = "" -> Validate p = empty_denom_error)
  /\ (BondDenom p <> "" -> MaxValidators p = 0%N -> Validate p = max_validators_error)
  /\ (BondDenom p <> "" -> MaxValidators p <> 0%N -> Epoch p = 0%N ->
      Validate p = epoch_length_error)
  /\ (BondDenom p <> "" -> MaxValidators p <> 0%N -> Epoch p <> 0%N ->
      MaxValsToVote p = 0%N -> Validate p = max_validators_to_vote_error)
  /\ (BondDenom p <> "" -> MaxValidators p <> 0%N -> Epoch p <> 0%N ->
      MaxValsToVote p <> 0%N -> (dec_int (MinSelfDelegationLimit p) <= 0)%Z ->
      Validate p = min_self_delegation_limit_error)
  /\ (BondDenom p = "" -> MaxValidators p = 0%N -> Validate p = empty_denom_error)
  /\ List.NoDup validation_errors.
Proof.
  repeat split; try exact validation_errors_distinct; intros.
  all: try match goal with
           | H : (dec_int _ <= 0)%Z |- _ => apply Dec_LTE_ZeroDec_true in H
           end.
  all: validate_cases p; try reflexivity; try congruence.
Qed.

Lemma Validate_reports_first_violation_witness :
  Validate (NewParams three_weeks 0%N "" 0%N 0%N ZeroDec ZeroDec) = empty_denom_error
  /\ Validate (NewParams three_weeks 0%N "stake" 0%N 0%N ZeroDec ZeroDec) = max_validators_error
  /\ Validate (NewParams three_weeks 100%N "stake" 0%N 0%N ZeroDec ZeroDec) = epoch_length_error
  /\ Validate (NewParams three_weeks 100%N "stake" 200%N 0%N ZeroDec ZeroDec)
     = max_validators_to_vote_error
  /\ Validate (NewParams three_weeks 100%N "stake" 200%N 50%N ZeroDec ZeroDec)
     = min_self_delegation_limit_error.
Proof.
  split; [| split; [| split; [| split]]].
  - apply (Validate_reports_first_violation
             (NewParams three_weeks 0%N "" 0%N 0%N ZeroDec ZeroDec)); reflexivity.
  - apply (Validate_reports_first_violation
             (NewParams three_weeks 0%N "stake" 0%N 0%N ZeroDec ZeroDec));
      simpl; discriminate || reflexivity.
  - apply (Validate_reports_first_violation
             (NewParams three_weeks 100%N "stake" 0%N 0%N ZeroDec ZeroDec));
      simpl; discriminate || reflexivity.
  - apply (Validate_reports_first_violation
             (NewParams three_weeks 100%N "stake" 200%N 0%N ZeroDec ZeroDec));
      simpl; discriminate || reflexivity.
  - apply (Validate_reports_first_violation
             (NewParams three_weeks 100%N "stake" 200%N 50%N ZeroDec ZeroDec));
      simpl; discriminate || lia.
Defined.

(** C5: [Validate] has no test on MinDelegation: with a non-empty bond
    denomination, positive MaxValidators, Epoch and MaxValsToVote and a
    positive MinSelfDelegationLimit it returns no error whatever MinDelegation
    is, zero and negative values included. *)
Theorem Validate_does_not_check_MinDelegation
    (u : Duration) (m : uint16) (b : string) (e v : uint16) (s d : Dec) :
  b <> "" -> (0 < m)%N -> (0 < e)%N -> (0 < v)%N -> (0 < dec_int s)%Z ->
  Validate (NewParams u m b e v s d) = None.
Proof.
  intros Hb Hm He Hv Hs. apply Validate_None_iff.
  unfold invariants; simpl. auto.
Qed.

Lemma Validate_does_not_check_MinDelegation_witness :
  Validate (NewParams three_weeks 100%N "stake" 200%N 50%N (Dec_of_units 1%Z) ZeroDec) = None
  /\ Validate (NewParams three_weeks 100%N "stake" 200%N 50%N (Dec_of_units 1%Z)
                 (Dec_of_units (-5)%Z)) = None.
Proof.
  split; apply Validate_does_not_check_MinDelegation;
    first [discriminate | reflexivity].
Defined.

(** C9: the result of [Validate] is determined by BondDenom, MaxValidators,
    Epoch, MaxValsToVote and MinSelfDelegationLimit: two parameter sets that
    agree on these five get the same result, whatever their UnbondingTime and
    MinDelegation; so a negative UnbondingTime changes nothing. *)
Theorem Validate_depends_on_checked_fields (p q : Params) :
  BondDenom p = BondDenom q ->
  MaxValidators p = MaxValidators q ->
  Epoch p = Epoch q ->
  MaxValsToVote p = MaxValsToVote q ->
  MinSelfDelegationLimit p = MinSelfDelegationLimit q ->
  Validate p = Validate q
  /\ ((UnbondingTime q < 0)%Z -> Validate p = None -> Validate q = None).
Proof.
  intros Hb Hm He Hv Hs.
  assert (Heq : Validate p = Validate q).
  { unfold Validate. rewrite Hb, Hm, He, Hv, Hs. reflexivity. }
  split; [exact Heq |]. intros _ Hp. rewrite <- Heq. exact Hp.
Qed.

Lemma Validate_depends_on_checked_fields_witness :
  Validate p1
  = Validate (NewParams (-1)%Z 100%N "stake" 200%N 50%N (Dec_of_units 1%Z) (Dec_of_units (-7)%Z))
  /\ Validate (NewParams three_weeks 0%N "stake" 200%N 50%N (Dec_of_units 1%Z) ZeroDec)
     = Validate (NewParams (-1)%Z 0%N "stake" 200%N 50%N (Dec_of_units 1%Z) ZeroDec).
Proof.
  split.
  - apply (Validate_depends_on_checked_fields p1
             (NewParams (-1)%Z 100%N "stake" 200%N 50%N (Dec_of_units 1%Z)
                (Dec_of_units (-7)%Z))); reflexivity.
  - apply (Validate_depends_on_checked_fields
             (NewParams three_weeks 0%N "stake" 200%N 50%N (Dec_of_units 1%Z) ZeroDec)
             (NewParams (-1)%Z 0%N "stake" 200%N 50%N (Dec_of_units 1%Z) ZeroDec));
      reflexivity.
Defined.

(** ** NewParams *)

(** C6: [NewParams] only gathers its seven arguments: every field of the
    result is the corresponding argument, for all arguments, and nothing is
    validated: arguments that break every invariant still give the record. *)
Theorem NewParams_aggregates
    (u : Duration) (m : uint16) (b : string) (e v : uint16) (s d : Dec) :
  UnbondingTime (NewParams u m b e v s d) = u
  /\ MaxValidators (NewParams u m b e v s d) = m
  /\ BondDenom (NewParams u m b e v s d) = b
  /\ Epoch (NewParams u m b e v s d) = e
  /\ MaxValsToVote (NewParams u m b e v s d) = v
  /\ MinSelfDelegationLimit (NewParams u m b e v s d) = s
  /\ MinDelegation (NewParams u m b e v s d) = d
  /\ (exists p, p = NewParams (-1)%Z 0%N "" 0%N 0%N (Dec_of_units (-1)%Z) (Dec_of_units (-1)%Z)
                /\ Validate p <> None).
Proof.
  repeat split.
  eexists; split; [reflexivity | discriminate].
Qed.

(** ** Equal *)

Lemma bytes_Equal_refl (a : bytes) : bytes_Equal a a = true.
Proof.
  induction a as [| x a IH]; simpl; [reflexivity |].
  rewrite (Byte.byte_dec_lb (eq_refl x)). exact IH.
Qed.

Lemma bytes_Equal_true_iff (a b : bytes) : bytes_Equal a b = true <-> a = b.
Proof.
  split.
  - revert b. induction a as [| x a IH]; intros [| y b]; simpl; try discriminate.
    + reflexivity.
    + intros H. apply andb_prop in H. destruct H as [Hxy Hab].
      apply Byte.byte_dec_bl in Hxy. apply IH in Hab. congruence.
  - intros ->. apply bytes_Equal_refl.
Qed.

Section EqualProperties.
Variable marshal : Params -> bytes.
Variable cfg : config.

Lemma Equal_true_iff (a b : Params) :
  Equal marshal a b = true <-> marshal a = marshal b.
Proof. unfold Equal. apply bytes_Equal_true_iff. Qed.

(** C1: for any codec, [Equal] answers true exactly when the two
    encodings are the same bytes; hence every parameter set equals itself,
    the defaults equal the set built by [NewParams] from the same seven
    default values, two calls of [DefaultParams] give equal sets, and a set
    built by [NewParams] equals the record written out field by field. *)
Theorem Equal_iff_same_encoding :
  (forall a b : Params, Equal marshal a b = true <-> marshal a = marshal b)
  /\ (forall p : Params, Equal marshal p p = true)
  /\ Equal marshal (DefaultParams cfg)
       (NewParams (DefaultUnbondingTime cfg) (DefaultMaxValidators cfg)
          (DefaultBondDenom cfg) (DefaultEpoch cfg) (DefaultMaxValsToVote cfg)
          (DefaultMinSelfDelegationLimit cfg) (DefaultMinDelegation cfg)) = true
  /\ Equal marshal (DefaultParams cfg) (DefaultParams cfg) = true
  /\ (forall (u : Duration) (m : uint16) (b : string) (e v : uint16) (s d : Dec),
        Equal marshal (NewParams u m b e v s d)
          {| UnbondingTime := u; MaxValidators := m; Epoch := e; MaxValsToVote := v;
             BondDenom := b; MinSelfDelegationLimit := s; MinDelegation := d |} = true).
Proof.
  split; [exact Equal_true_iff |].
  repeat split; intros; apply Equal_true_iff; reflexivity.
Qed.
End EqualProperties.

(** ** ParamSetPairs *)

Lemma ParamSetPairs_keys (l : loc) :
  map Key (ParamSetPairs l)
  = map list_byte_of_string
      [ "UnbondingTime"; "MaxValidators"; "BondDenom"; "BlocksPerEpoch"; "MaxValsToVote";
        "MinSelfDelegationLimit"; "MinDelegation" ].
Proof. reflexivity. Qed.

Lemma binding_keys_distinct :
  List.NoDup
    (map list_byte_of_string
       [ "UnbondingTime"; "MaxValidators"; "BondDenom"; "BlocksPerEpoch"; "MaxValsToVote";
         "MinSelfDelegationLimit"; "MinDelegation" ]).
Proof.
  vm_compute.
  repeat (constructor;
          [ intros H; simpl in H; repeat destruct H as [H | H]; discriminate H || exact H |]).
  constructor.
Qed.

(** C4: for every parameter set, [ParamSetPairs] returns seven pairs, the
    pointers being those of the fields unbonding time, max validators, bond
    denom, epoch, max validators to vote, min self delegation limit and min
    delegation of that set, in this order, under the keys "UnbondingTime",
    "MaxValidators", "BondDenom", "BlocksPerEpoch", "MaxValsToVote",
    "MinSelfDelegationLimit", "MinDelegation"; no key occurs twice, and the
    keys and their order are the same for every set and every call, whatever
    the memory holds. *)
Theorem ParamSetPairs_seven_keys_in_order (l : loc) :
  length (ParamSetPairs l) = 7
  /\ map Value (ParamSetPairs l) = map (FieldPtr l) bindings_order
  /\ map (fun kv => string_of_list_byte (Key kv)) (ParamSetPairs l)
     = [ "UnbondingTime"; "MaxValidators"; "BondDenom"; "BlocksPerEpoch"; "MaxValsToVote";
         "MinSelfDelegationLimit"; "MinDelegation" ]
  /\ (forall k : bytes,
        In k (map Key (ParamSetPairs l))
        <-> In (string_of_list_byte k)
              [ "UnbondingTime"; "MaxValidators"; "BondDenom"; "BlocksPerEpoch";
                "MaxValsToVote"; "MinSelfDelegationLimit"; "MinDelegation" ])
  /\ List.NoDup (map Key (ParamSetPairs l))
  /\ (forall l' : loc, map Key (ParamSetPairs l') = map Key (ParamSetPairs l)).
Proof.
  split; [reflexivity |]. split; [reflexivity |]. split; [reflexivity |].
  split; [| split].
  - intros k. rewrite ParamSetPairs_keys. split.
    + intros Hin. apply in_map_iff in Hin. destruct Hin as (s & <- & Hs).
      rewrite string_of_list_byte_of_string. exact Hs.
    + intros Hin. apply in_map_iff. exists (string_of_list_byte k).
      split; [apply list_byte_of_string_of_list_byte | exact Hin].
  - rewrite ParamSetPairs_keys. exact binding_keys_distinct.
  - intros l'. reflexivity.
Qed.

(** C10: the key "TheEndOfLastEpoch" is declared beside the seven binding
    keys, but no pair of [ParamSetPairs] carries it, for any parameter set. *)
Theorem TheEndOfLastEpoch_is_not_bound (l : loc) :
  string_of_list_byte KeyTheEndOfLastEpoch = "TheEndOfLastEpoch"
  /\ ~ In KeyTheEndOfLastEpoch (map Key (ParamSetPairs l))
  /\ forallb (fun kv => negb (bytes_Equal (Key kv) KeyTheEndOfLastEpoch)) (ParamSetPairs l)
     = true.
Proof.
  split; [reflexivity |]. split; [| reflexivity].
  rewrite ParamSetPairs_keys. simpl.
  intros H. repeat destruct H as [H | H]; discriminate H || exact H.
Qed.

(** C7: writing a new value through the pointer that [ParamSetPairs] pairs
    with the key "MaxValidators" overwrites MaxValidators of that very
    parameter set: reading the field, directly or through the pointer, gives
    the new value, the six other fields keep their values, and every other
    parameter set in memory is untouched. *)
Theorem write_through_MaxValidators
    (h : heap) (l : loc) (p : Params) (kv : ParamSetPair) (n : uint16) :
  h !! l = Some p ->
  In kv (ParamSetPairs l) ->
  Key kv = KeyMaxValidators ->
  exists (h' : heap) (p' : Params),
    store h (Value kv) (VUint16 n) = Some h'
    /\ h' !! l = Some p'
    /\ MaxValidators p' = n
    /\ load h' (Value kv) = Some (VUint16 n)
    /\ UnbondingTime p' = UnbondingTime p
    /\ Epoch p' = Epoch p
    /\ MaxValsToVote p' = MaxValsToVote p
    /\ BondDenom p' = BondDenom p
    /\ MinSelfDelegationLimit p' = MinSelfDelegationLimit p
    /\ MinDelegation p' = MinDelegation p
    /\ (forall l' : loc, l' <> l -> h' !! l' = h !! l').
Proof.
  intros Hl Hin Hkey.
  assert (Hkv : Value kv = FieldPtr l FMaxValidators).
  { simpl in Hin.
    repeat destruct Hin as [Hin | Hin]; try contradiction; subst kv;
      first [reflexivity | vm_compute in Hkey; discriminate Hkey]. }
  rewrite Hkv. unfold store, load. rewrite Hl. simpl.
  eexists _, _. split; [reflexivity |].
  rewrite lookup_insert_eq. split; [reflexivity |]. simpl.
  repeat split; try reflexivity.
  intros l' Hne. apply lookup_insert_ne. congruence.
Qed.

Lemma write_through_MaxValidators_witness :
  exists (h' : heap) (p' : Params),
    store (<[2%positive := p1]> (<[1%positive := p1]> ∅))
      (FieldPtr 1%positive FMaxValidators) (VUint16 7%N) = Some h'
    /\ h' !! 1%positive = Some p'
    /\ MaxValidators p' = 7%N
    /\ load h' (FieldPtr 1%positive FMaxValidators) = Some (VUint16 7%N)
    /\ UnbondingTime p' = UnbondingTime p1
    /\ Epoch p' = Epoch p1
    /\ MaxValsToVote p' = MaxValsToVote p1
    /\ BondDenom p' = BondDenom p1
    /\ MinSelfDelegationLimit p' = MinSelfDelegationLimit p1
    /\ MinDelegation p' = MinDelegation p1
    /\ (forall l' : loc, l' <> 1%positive ->
          h' !! l' = (<[2%positive := p1]> (<[1%positive := p1]> ∅) : heap) !! l').
Proof.
  apply (write_through_MaxValidators
           (<[2%positive := p1]> (<[1%positive := p1]> ∅)) 1%positive p1
           {| Key := KeyMaxValidators; Value := FieldPtr 1%positive FMaxValidators |} 7%N).
  - reflexivity.
  - simpl. right. left. reflexivity.
  - reflexivity.
Defined.

(** ** String *)

Lemma append_empty_right (s : string) : s +:+ "" = s.
Proof.
  induction s as [| c s IH]; [reflexivity |].
  change (String c (s +:+ "") = String c s). f_equal. exact IH.
Qed.

Lemma append_assoc (a b c : string) : (a +:+ b) +:+ c = a +:+ b +:+ c.
Proof.
  induction a as [| x a IH]; [reflexivity |].
  change (String x ((a +:+ b) +:+ c) = String x (a +:+ b +:+ c)). f_equal. exact IH.
Qed.

Section StringProperties.
Variable Duration_String : Duration -> string.
Variable Dec_Format : ascii -> Dec -> string.
Variable fmt_other : ascii -> value -> string.

(** The formats of the five errors contain no verb: printing them without
    operands gives them back. *)
Lemma Errorf_formats_have_no_verb :
  Forall (fun e : error =>
            match e with
            | Some format => fmt_Sprintf Duration_String Dec_Format fmt_other format [] = format
            | None => False
            end) validation_errors.
Proof. repeat constructor. Qed.

Lemma Params_String_unfold (p : Params) :
  Params_String Duration_String Dec_Format fmt_other p
  = "Params:
  Unbonding Time:    		" +:+ Duration_String (UnbondingTime p) +:+ "
  Max Validators:   	 	" +:+ uint_decimal (MaxValidators p) +:+ "
  Epoch: 					" +:+ uint_decimal (Epoch p) +:+ "
  Bonded Coin Denom: 		" +:+ BondDenom p +:+ "
  MaxValsToVote:     		" +:+ uint_decimal (MaxValsToVote p) +:+ "
  MinSelfDelegationLimited  " +:+ Dec_Format "d"%char (MinSelfDelegationLimit p) +:+ "
  MinDelegation				" +:+ Dec_Format "d"%char (MinDelegation p).
Proof.
  unfold Params_String, String_operands. cbn.
  rewrite append_empty_right. reflexivity.
Qed.

(** C8, as the code has it: [String] is a fixed layout of a heading and
    seven lines, one per field, and the fields come in the order unbonding
    time, max validators, epoch, bond denom, max validators to vote, min self
    delegation limit, min delegation. *)
Theorem Params_String_layout (p : Params) :
  String_operands p
  = map (get_field p)
      [ FUnbondingTime; FMaxValidators; FEpoch; FBondDenom; FMaxValsToVote;
        FMinSelfDelegationLimit; FMinDelegation ]
  /\ Params_String Duration_String Dec_Format fmt_other p
     = "Params:
  Unbonding Time:    		" +:+ Duration_String (UnbondingTime p) +:+ "
  Max Validators:   	 	" +:+ uint_decimal (MaxValidators p) +:+ "
  Epoch: 					" +:+ uint_decimal (Epoch p) +:+ "
  Bonded Coin Denom: 		" +:+ BondDenom p +:+ "
  MaxValsToVote:     		" +:+ uint_decimal (MaxValsToVote p) +:+ "
  MinSelfDelegationLimited  " +:+ Dec_Format "d"%char (MinSelfDelegationLimit p) +:+ "
  MinDelegation				" +:+ Dec_Format "d"%char (MinDelegation p).
Proof. split; [reflexivity | apply Params_String_unfold]. Qed.
End StringProperties.

(** C8, as the specification words it (the fields rendered in the order of
    the data model), fails: in the scenario's parameter set the fourth field
    rendered is the bond denomination "stake", where the data model has max
    validators to vote, 50; whatever the formatting of durations and decimals,
    the line of the bond denomination comes before that of max validators to
    vote. *)
Lemma Params_String_order_counterexample :
  Params_ok p1
  /\ rendered_in_order data_model_order p1 = false
  /\ nth_error (String_operands p1) 3 = Some (VString "stake")
  /\ nth_error (map (get_field p1) data_model_order) 3 = Some (VUint16 50%N)
  /\ (forall (Duration_String : Duration -> string) (Dec_Format : ascii -> Dec -> string)
             (fmt_other : ascii -> value -> string),
        exists pre post : string,
          Params_String Duration_String Dec_Format fmt_other p1
          = pre +:+ "  Bonded Coin Denom: 		stake
  MaxValsToVote:     		50
" +:+ post).
Proof.
  split; [unfold Params_ok, Duration_ok, uint16_ok; vm_compute; intuition discriminate |].
  split; [reflexivity |]. split; [reflexivity |]. split; [reflexivity |].
  intros fD fDec fo.
  exists ("Params:
  Unbonding Time:    		" +:+ fD three_weeks +:+ "
  Max Validators:   	 	100
  Epoch: 					200
").
  exists ("  MinSelfDelegationLimited  " +:+ fDec "d"%char (Dec_of_units 1%Z) +:+ "
  MinDelegation				" +:+ fDec "d"%char (Dec_of_units 0%Z)).
  rewrite Params_String_unfold. cbn [p1 NewParams UnbondingTime MaxValidators Epoch
    MaxValsToVote BondDenom MinSelfDelegationLimit MinDelegation].
  change (uint_decimal 100) with "100". change (uint_decimal 200) with "200".
  change (uint_decimal 50) with "50".
  rewrite !append_assoc. reflexivity.
Qed.

(** ** Reading and writing through the pairs of ParamSetPairs *)

Lemma set_field_typed (p : Params) (f : field) (v : value) :
  value_type v = field_type f ->
  exists p' : Params,
    set_field p f v = Some p'
    /\ get_field p' f = v
    /\ (forall f' : field, f' <> f -> get_field p' f' = get_field p f').
Proof.
  intros Hty.
  destruct f, v; simpl in Hty; try discriminate Hty;
    (eexists; split; [reflexivity |]; split; [reflexivity |]);
    intros f' Hne; destruct f'; try reflexivity; contradiction.
Qed.

Lemma set_field_Some (p p' : Params) (f : field) (v : value) :
  set_field p f v = Some p' ->
  value_type v = field_type f
  /\ get_field p' f = v
  /\ (forall f' : field, f' <> f -> get_field p' f' = get_field p f').
Proof.
  intros Hset.
  destruct f, v; simpl in Hset; try discriminate Hset;
    injection Hset as <-; (split; [reflexivity |]; split; [reflexivity |]);
    intros f' Hne; destruct f'; try reflexivity; contradiction.
Qed.


Lemma ParamSetPairs_pointer (l : loc) (kv : ParamSetPair) :
  In kv (ParamSetPairs l) -> Value kv = FieldPtr l (pointer_field (Value kv)).
Proof.
  intros Hin. simpl in Hin.
  repeat destruct Hin as [Hin | Hin]; try contradiction; subst kv; reflexivity.
Qed.

(** X1: a write through the pointer of any of the seven pairs, of a value of
    the type of the field it points to, succeeds and overwrites that field of
    that parameter set: reading through the pointer gives the value written,
    the six other fields keep their values, and the rest of the memory is as
    it was. *)
Theorem write_through_any_pair
    (h : heap) (l : loc) (p : Params) (kv : ParamSetPair) (v : value) :
  h !! l = Some p ->
  In kv (ParamSetPairs l) ->
  value_type v = field_type (pointer_field (Value kv)) ->
  exists p' : Params,
    store h (Value kv) v = Some (<[l := p']> h)
    /\ load (<[l := p']> h) (Value kv) = Some v
    /\ get_field p' (pointer_field (Value kv)) = v
    /\ (forall f' : field,
          f' <> pointer_field (Value kv) -> get_field p' f' = get_field p f')
    /\ (forall l' : loc, l' <> l -> (<[l := p']> h : heap) !! l' = h !! l').
Proof.
  intros Hl Hin Hty.
  apply ParamSetPairs_pointer in Hin.
  destruct (set_field_typed p _ v Hty) as (p' & Hset & Hget & Hframe).
  exists p'. rewrite Hin. simpl pointer_field in *. unfold store, load.
  rewrite Hl, Hset, lookup_insert_eq, Hget.
  repeat split; try assumption.
  intros l' Hne. apply lookup_insert_ne. congruence.
Qed.

Lemma write_through_any_pair_witness :
  exists p' : Params,
    store h1 (FieldPtr 1%positive FBondDenom) (VString "okt") = Some (<[1%positive := p']> h1)
    /\ load (<[1%positive := p']> h1) (FieldPtr 1%positive FBondDenom) = Some (VString "okt")
    /\ get_field p' FBondDenom = VString "okt"
    /\ (forall f' : field, f' <> FBondDenom -> get_field p' f' = get_field p1 f')
    /\ (forall l' : loc, l' <> 1%positive -> (<[1%positive := p']> h1 : heap) !! l' = h1 !! l').
Proof.
  apply (write_through_any_pair h1 1%positive p1
           {| Key := KeyBondDenom; Value := FieldPtr 1%positive FBondDenom |} (VString "okt")).
  - reflexivity.
  - simpl. right. right. left. reflexivity.
  - reflexivity.
Defined.

(** X2: the seven pairs reach every field of the parameter set, each through
    exactly one pair: for each field there is one pair whose pointer is that
    field's address, and a read through it gives the field's current value. *)
Theorem pairs_reach_every_field (h : heap) (l : loc) (p : Params) (f : field) :
  h !! l = Some p ->
  exists kv : ParamSetPair,
    In kv (ParamSetPairs l)
    /\ Value kv = FieldPtr l f
    /\ load h (Value kv) = Some (get_field p f)
    /\ (forall kv' : ParamSetPair,
          In kv' (ParamSetPairs l) -> Value kv' = FieldPtr l f -> kv' = kv).
Proof.
  intros Hl.
  assert (Hex : exists kv, In kv (ParamSetPairs l) /\ Value kv = FieldPtr l f).
  { destruct f;
      (eexists {| Key := _; Value := FieldPtr l _ |}; split; [| reflexivity]);
      simpl; repeat first [left; reflexivity | right]. }
  destruct Hex as (kv & Hin & Hv). exists kv.
  split; [exact Hin |]. split; [exact Hv |]. split.
  - rewrite Hv. unfold load. rewrite Hl. reflexivity.
  - intros kv' Hin' Hv'. simpl in Hin, Hin'.
    repeat destruct Hin as [Hin | Hin]; try contradiction; subst kv;
      repeat destruct Hin' as [Hin' | Hin']; try contradiction; subst kv';
      first [reflexivity | simpl in Hv, Hv'; congruence].
Qed.

Lemma pairs_reach_every_field_witness :
  exists kv : ParamSetPair,
    In kv (ParamSetPairs 2%positive)
    /\ Value kv = FieldPtr 2%positive FEpoch
    /\ load h1 (Value kv) = Some (get_field p1 FEpoch)
    /\ (forall kv' : ParamSetPair,
          In kv' (ParamSetPairs 2%positive) -> Value kv' = FieldPtr 2%positive FEpoch ->
          kv' = kv).
Proof.
  apply (pairs_reach_every_field h1 2%positive p1 FEpoch). reflexivity.
Defined.









(** X6: the seven pairs are enough to overwrite a whole parameter set:
    writing, through each pair in turn, the value another set [q] has in the
    field the pair points to, succeeds and leaves [q] at the address, the
    rest of the memory being as it was. *)
Theorem pairs_overwrite_whole_set (h : heap) (l : loc) (p q : Params) :
  h !! l = Some p ->
  store_all h (writes_of q (ParamSetPairs l)) = Some (<[l := q]> h).
Proof.
  intros Hl. unfold writes_of. simpl. unfold store. rewrite Hl. simpl.
  repeat (rewrite lookup_insert_eq; simpl; rewrite insert_insert_eq).
  destruct q. reflexivity.
Qed.

Lemma pairs_overwrite_whole_set_witness :
  store_all h1 (writes_of p2 (ParamSetPairs 1%positive)) = Some (<[1%positive := p2]> h1).
Proof.
  apply (pairs_overwrite_whole_set h1 1%positive p1 p2). reflexivity.
Defined.

(** ** Equal as a relation *)

Lemma bytes_Equal_sym (a b : bytes) : bytes_Equal a b = bytes_Equal b a.
Proof.
  destruct (bytes_Equal a b) eqn:Hab; destruct (bytes_Equal b a) eqn:Hba; try reflexivity.
  - apply bytes_Equal_true_iff in Hab. subst b. rewrite bytes_Equal_refl in Hba. discriminate.
  - apply bytes_Equal_true_iff in Hba. subst b. rewrite bytes_Equal_refl in Hab. discriminate.
Qed.

(** X7: whatever the codec, [Equal] is symmetric (both orders of the operands
    give the same answer) and transitive; with its reflexivity it is an
    equivalence on parameter sets. *)
Theorem Equal_is_an_equivalence (marshal : Params -> bytes) :
  (forall a b : Params, Equal marshal a b = Equal marshal b a)
  /\ (forall a b c : Params,
        Equal marshal a b = true -> Equal marshal b c = true -> Equal marshal a c = true).
Proof.
  split.
  - intros a b. unfold Equal. apply bytes_Equal_sym.
  - intros a b c Hab Hbc. unfold Equal in *.
    apply bytes_Equal_true_iff in Hab. apply bytes_Equal_true_iff in Hbc.
    apply bytes_Equal_true_iff. congruence.
Qed.

Lemma positive_of_bytes_of_positive (n : positive) :
  positive_of_bytes (bytes_of_positive n) = n.
Proof. induction n as [n IH | n IH |]; simpl; rewrite ?IH; reflexivity. Qed.

Lemma sample_codec_round_trip (p : Params) : sample_unmarshal (sample_marshal p) = Some p.
Proof.
  unfold sample_unmarshal, sample_marshal.
  rewrite positive_of_bytes_of_positive. apply decode_encode.
Qed.

(** X8: with a codec that can be decoded (decoding an encoding gives the set
    back) [Equal] is the comparison of the struct fields: it answers true
    exactly for sets with the same seven fields, and false as soon as one field
    differs; sets it finds equal get the same result from [Validate]. *)
Theorem Equal_with_decodable_codec
    (marshal : Params -> bytes) (unmarshal : bytes -> option Params) (a b : Params) :
  (forall p : Params, unmarshal (marshal p) = Some p) ->
  (Equal marshal a b = true <-> a = b)
  /\ (Equal marshal a b = false <->
      exists f : field, get_field a f <> get_field b f)
  /\ (Equal marshal a b = true -> Validate a = Validate b).
Proof.
  intros Hrt.
  assert (Heq : Equal marshal a b = true <-> a = b).
  { unfold Equal. rewrite bytes_Equal_true_iff. split; [| congruence].
    intros Hm. pose proof (Hrt a) as Ha. rewrite Hm, Hrt in Ha. congruence. }
  split; [exact Heq |]. split.
  - split.
    + intros Hf.
      destruct (decide (a = b)) as [-> | Hne].
      { rewrite (proj2 Heq eq_refl) in Hf. discriminate. }
      destruct (decide (get_field a FUnbondingTime = get_field b FUnbondingTime)) as [H1 | H1];
        [| eexists; exact H1].
      destruct (decide (get_field a FMaxValidators = get_field b FMaxValidators)) as [H2 | H2];
        [| eexists; exact H2].
      destruct (decide (get_field a FEpoch = get_field b FEpoch)) as [H3 | H3];
        [| eexists; exact H3].
      destruct (decide (get_field a FMaxValsToVote = get_field b FMaxValsToVote)) as [H4 | H4];
        [| eexists; exact H4].
      destruct (decide (get_field a FBondDenom = get_field b FBondDenom)) as [H5 | H5];
        [| eexists; exact H5].
      destruct (decide (get_field a FMinSelfDelegationLimit
                        = get_field b FMinSelfDelegationLimit)) as [H6 | H6];
        [| eexists; exact H6].
      destruct (decide (get_field a FMinDelegation = get_field b FMinDelegation)) as [H7 | H7];
        [| eexists; exact H7].
      exfalso. apply Hne. destruct a, b. simpl in *. congruence.
    + intros (f & Hf). destruct (Equal marshal a b) eqn:He; [| reflexivity].
      exfalso. apply Hf. f_equal. apply Heq. reflexivity.
  - intros He. apply Heq in He. subst b. reflexivity.
Qed.

Lemma Equal_with_decodable_codec_witness :
  (Equal sample_marshal p1 p2 = true <-> p1 = p2)
  /\ (Equal sample_marshal p1 p2 = false <->
      exists f : field, get_field p1 f <> get_field p2 f)
  /\ (Equal sample_marshal p1 p2 = true -> Validate p1 = Validate p2).
Proof.
  apply (Equal_with_decodable_codec sample_marshal sample_unmarshal p1 p2).
  exact sample_codec_round_trip.
Defined.

(** ** Validate after a write through a pair *)

(** Settles the tests of [Validate] that the hypotheses decide. *)
Ltac settle_tests :=
  unfold Validate, fmt_Errorf; simpl;
  repeat match goal with
         | |- context [String.eqb ?a ?b] =>
             destruct (String.eqb_spec a b); [try congruence | try congruence]
         | |- context [N.eqb ?a ?b] =>
             destruct (N.eqb_spec a b); [try lia | try lia]
         | H : (dec_int ?d <= 0)%Z |- context [Dec_LTE ?d ZeroDec] =>
             rewrite (proj2 (Dec_LTE_ZeroDec_true d) H)
         | H : (0 < dec_int ?d)%Z |- context [Dec_LTE ?d ZeroDec] =>
             rewrite (proj2 (Dec_LTE_ZeroDec_false d) H)
         end;
  try reflexivity.

(** X9: a write through the pair of key "UnbondingTime" or of key
    "MinDelegation" never changes what [Validate] answers for the parameter
    set: a valid set stays valid and an invalid one keeps its error, whatever
    the value written. *)
Theorem writes_to_unchecked_fields_keep_Validate
    (h h' : heap) (l : loc) (p : Params) (kv : ParamSetPair) (v : value) :
  h !! l = Some p ->
  In kv (ParamSetPairs l) ->
  Key kv = KeyUnbondingTime \/ Key kv = KeyMinDelegation ->
  store h (Value kv) v = Some h' ->
  exists p' : Params, h' !! l = Some p' /\ Validate p' = Validate p.
Proof.
  intros Hl Hin Hkey Hst. simpl in Hin.
  repeat destruct Hin as [Hin | Hin]; try contradiction; subst kv;
    simpl in Hkey, Hst;
    try (destruct Hkey as [Hkey | Hkey]; vm_compute in Hkey; discriminate Hkey).
  all: unfold store in Hst; rewrite Hl in Hst;
    destruct v; simpl in Hst; try discriminate Hst;
    injection Hst as <-; rewrite lookup_insert_eq;
    eexists; split; reflexivity.
Qed.

Lemma writes_to_unchecked_fields_keep_Validate_witness :
  exists p' : Params,
    (<[1%positive := NewParams (-1)%Z 100%N "stake" 200%N 50%N
                       (Dec_of_units 1%Z) (Dec_of_units 0%Z)]> h1 : heap) !! 1%positive
    = Some p'
    /\ Validate p' = Validate p1.
Proof.
  apply (writes_to_unchecked_fields_keep_Validate h1 _ 1%positive p1
           {| Key := KeyUnbondingTime; Value := FieldPtr 1%positive FUnbondingTime |}
           (VDuration (-1)%Z)).
  - reflexivity.
  - simpl. left. reflexivity.
  - left. reflexivity.
  - reflexivity.
Defined.

(** X10: writes through the pairs are not validated: on a valid parameter
    set, writing an empty string through the pair of key "BondDenom", zero
    through that of "MaxValidators", "BlocksPerEpoch" or "MaxValsToVote", or a
    decimal that is not positive through that of "MinSelfDelegationLimit"
    succeeds, and [Validate] then answers with the error of the field
    written. *)
Theorem writes_are_not_validated (h : heap) (l : loc) (p : Params) (kv : ParamSetPair) :
  h !! l = Some p ->
  invariants p ->
  In kv (ParamSetPairs l) ->
  (Key kv = KeyBondDenom ->
   exists p' : Params,
     store h (Value kv) (VString "") = Some (<[l := p']> h)
     /\ Validate p' = empty_denom_error)
  /\ (Key kv = KeyMaxValidators ->
      exists p' : Params,
        store h (Value kv) (VUint16 0%N) = Some (<[l := p']> h)
        /\ Validate p' = max_validators_error)
  /\ (Key kv = KeyEpoch ->
      exists p' : Params,
        store h (Value kv) (VUint16 0%N) = Some (<[l := p']> h)
        /\ Validate p' = epoch_length_error)
  /\ (Key kv = KeyMaxValsToVote ->
      exists p' : Params,
        store h (Value kv) (VUint16 0%N) = Some (<[l := p']> h)
        /\ Validate p' = max_validators_to_vote_error)
  /\ (Key kv = KeyMinSelfDelegationLimit ->
      forall d : Dec, (dec_int d <= 0)%Z ->
      exists p' : Params,
        store h (Value kv) (VDec d) = Some (<[l := p']> h)
        /\ Validate p' = min_self_delegation_limit_error).
Proof.
  intros Hl (Hb & Hm & He & Hv & Hs) Hin. simpl in Hin.
  repeat destruct Hin as [Hin | Hin]; try contradiction; subst kv; simpl.
  all: repeat split; intros Hkey; try (vm_compute in Hkey; discriminate Hkey).
  all: try intros d Hd.
  all: unfold store; rewrite Hl; simpl; eexists; (split; [reflexivity |]).
  all: settle_tests.
Qed.

Lemma writes_are_not_validated_witness :
  exists p' : Params,
    store h1 (FieldPtr 2%positive FEpoch) (VUint16 0%N) = Some (<[2%positive := p']> h1)
    /\ Validate p' = epoch_length_error.
Proof.
  apply (writes_are_not_validated h1 2%positive p1
           {| Key := KeyEpoch; Value := FieldPtr 2%positive FEpoch |}).
  - reflexivity.
  - unfold invariants. simpl. repeat split; first [discriminate | reflexivity].
  - simpl. do 3 right. left. reflexivity.
  - reflexivity.
Defined.
